(** * Live chat room: the Socket.IO handlers of [real_time_chat/main.py]

    The server keeps one module-level dictionary, [active_users], from
    connection id to a small record, and five event handlers that read and
    update it and emit events through Flask-SocketIO.  The handlers are
    embedded as computations over the server state that may raise, with the
    emitted events collected in order; every handler wraps its body in
    [try ... except Exception], which is kept as written. *)

From Stdlib Require Import String Ascii List Bool NArith Permutation.
From Stdlib Require Import DecimalString DecimalN Lia.
Import ListNotations.
Open Scope string_scope.
Open Scope list_scope.

(** ** Python strings

    A [str] is taken as a [string]: a sequence of code points below 256.
    On that range [str.isspace] holds for the code points 9..13, 28..32,
    133 and 160. *)

Module PyStr.

Definition isspace (c : ascii) : bool :=
  let n := nat_of_ascii c in
  (Nat.leb 9 n && Nat.leb n 13) || (Nat.leb 28 n && Nat.leb n 32)
  || Nat.eqb n 133 || Nat.eqb n 160.

Fixpoint lstrip (s : string) : string :=
  match s with
  | EmptyString => EmptyString
  | String c s' => if isspace c then lstrip s' else s
  end.

Fixpoint rstrip (s : string) : string :=
  match s with
  | EmptyString => EmptyString
  | String c s' =>
      match rstrip s' with
      | EmptyString => if isspace c then EmptyString else String c EmptyString
      | r => String c r
      end
  end.

(** [s.strip()] *)
Definition strip (s : string) : string := rstrip (lstrip s).

(** Every character of [s] is whitespace. *)
Fixpoint blank (s : string) : bool :=
  match s with
  | EmptyString => true
  | String c s' => isspace c && blank s'
  end.

(** Truth value of a [str]: only the empty string is falsy. *)
Definition truthy (s : string) : bool :=
  match s with EmptyString => false | _ => true end.

(** [str(n)] for a non-negative integer. *)
Definition of_N (n : N) : string := NilEmpty.string_of_uint (N.to_uint n).

End PyStr.

(** ** Python dictionaries with string keys

    A [dict] iterates in insertion order: assigning to a key that is present
    keeps its place, assigning to a new key appends, deleting removes.
    The iteration order is observable here (the presence list and the scan of
    the private-message branch), so a dictionary is an association list. *)

Module PyDict.

Section Dict.
Context {V : Type}.

Definition dict := list (string * V).

(** [k in d] *)
Definition mem (k : string) (d : dict) : bool :=
  existsb (fun p => String.eqb (fst p) k) d.

(** [d.get(k)] *)
Fixpoint get (k : string) (d : dict) : option V :=
  match d with
  | [] => None
  | (k', v) :: d' => if String.eqb k' k then Some v else get k d'
  end.

(** [d[k] = v] *)
Fixpoint set (k : string) (v : V) (d : dict) : dict :=
  match d with
  | [] => [(k, v)]
  | (k', v') :: d' =>
      if String.eqb k' k then (k', v) :: d' else (k', v') :: set k v d'
  end.

(** [del d[k]], for a key that is present *)
Definition del (k : string) (d : dict) : dict :=
  filter (fun p => negb (String.eqb (fst p) k)) d.

(** [d.values()] and [d.keys()] *)
Definition values (d : dict) : list V := map snd d.
Definition keys (d : dict) : list string := map fst d.

End Dict.

Arguments dict : clear implicits.

End PyDict.

(** ** Data *)

(** A value of [active_users]: [{"username": .., "connected_at": ..}] with
    the key ["room"] added by [on_join] and popped by [on_leave]. *)
Record user_data := mk_user {
  username : string;
  room : option string;
  connected_at : string
}.

(** What a handler finds around it: [request.sid] and the connection's
    [session], of which only the key ["username"] is used. *)
Record env := mk_env {
  sid : string;
  session : option string
}.

(** The [data] argument of the [join], [leave] and [message] events: a
    dictionary in which each of the four keys may be absent. *)
Record data := mk_data {
  d_room : option string;
  d_type : option string;
  d_msg : option string;
  d_target : option string
}.

(** [data.get(key, default)] *)
Definition get_default (field : option string) (default : string) : string :=
  match field with Some v => v | None => default end.

(** Payloads of the four outbound events. *)
Inductive payload :=
| ActiveUsers (users : list string)
| Status (msg type timestamp : string)
| Message (msg user room timestamp : string)
| PrivateMessage (msg from to timestamp : string).

(** Where [emit] sends: [broadcast=True], or [room=...].  Socket.IO puts every
    connection in a room named by its own sid, so [room=sid] addresses that
    connection alone. *)
Inductive dest :=
| Broadcast
| ToRoom (name : string).

Record emitted := mk_emit {
  ev_name : string;
  ev_payload : payload;
  ev_dest : dest
}.

(** The server: the [active_users] dictionary and the room table of the
    Socket.IO server, which [join_room] and [leave_room] update for the
    current connection. *)
Record server := mk_server {
  active_users : PyDict.dict user_data;
  rooms : list (string * string)
}.

Definition init : server := mk_server [] [].

(** [Config.CHAT_ROOMS] *)
Definition CHAT_ROOMS : list string := ["General"; "Random"; "Tech"; "Games"].

(** [room in app.config["CHAT_ROOMS"]] *)
Definition in_chat_rooms (r : string) : bool :=
  existsb (String.eqb r) CHAT_ROOMS.

(** ** Handler computations *)

Inductive exn :=
| KeyError (key : string).

Inductive outcome (A : Type) :=
| Ret (a : A)
| Raise (e : exn).
Arguments Ret {A} a.
Arguments Raise {A} e.

(** A computation runs on the server state and yields an outcome, the state
    it left and the events it emitted, oldest first.  What was done before an
    exception stays done. *)
Definition M (A : Type) : Type := server -> outcome A * server * list emitted.

Definition ret {A} (a : A) : M A := fun s => (Ret a, s, []).

Definition raise {A} (e : exn) : M A := fun s => (Raise e, s, []).

Definition bind {A B} (m : M A) (k : A -> M B) : M B :=
  fun s =>
    match m s with
    | (Ret a, s1, out1) =>
        let '(o, s2, out2) := k a s1 in (o, s2, out1 ++ out2)
    | (Raise e, s1, out1) => (Raise e, s1, out1)
    end.

(** [try: body  except Exception as e: handler e] *)
Definition try_except {A} (body : M A) (handler : exn -> M A) : M A :=
  fun s =>
    match body s with
    | (Ret a, s1, out1) => (Ret a, s1, out1)
    | (Raise e, s1, out1) =>
        let '(o, s2, out2) := handler e s1 in (o, s2, out1 ++ out2)
    end.

Declare Scope py_scope.
Delimit Scope py_scope with py.
Notation "x <- m ;; k" := (bind m (fun x => k))
  (at level 61, m at next level, right associativity) : py_scope.
Notation "m ;; k" := (bind m (fun _ => k))
  (at level 61, right associativity) : py_scope.
Open Scope py_scope.

Definition get_state : M server := fun s => (Ret s, s, []).

Definition put_users (d : PyDict.dict user_data) : M unit :=
  fun s => (Ret tt, mk_server d (rooms s), []).

Definition put_rooms (t : list (string * string)) : M unit :=
  fun s => (Ret tt, mk_server (active_users s) t, []).

(** [emit(name, payload, broadcast=True)] or [emit(name, payload, room=r)] *)
Definition emit (name : string) (p : payload) (d : dest) : M unit :=
  fun s => (Ret tt, s, [mk_emit name p d]).

(** [session["username"]] *)
Definition session_username (e : env) : M string :=
  match session e with
  | Some u => ret u
  | None => raise (KeyError "username")
  end.

(** [active_users[k]] *)
Definition users_item (k : string) : M user_data :=
  s <- get_state ;;
  match PyDict.get k (active_users s) with
  | Some u => ret u
  | None => raise (KeyError k)
  end.

Definition pair_eqb (p q : string * string) : bool :=
  String.eqb (fst p) (fst q) && String.eqb (snd p) (snd q).

(** [join_room(r)] and [leave_room(r)] for the connection [k] *)
Definition join_room (k r : string) : M unit :=
  s <- get_state ;;
  if existsb (pair_eqb (k, r)) (rooms s) then ret tt
  else put_rooms (rooms s ++ [(k, r)]).

Definition leave_room (k r : string) : M unit :=
  s <- get_state ;;
  put_rooms (filter (fun p => negb (pair_eqb (k, r) p)) (rooms s)).

(** [[user["username"] for user in active_users.values()]] *)
Definition snapshot (s : server) : list string :=
  map username (PyDict.values (active_users s)).

Definition broadcast_active_users : M unit :=
  s <- get_state ;;
  emit "active_users" (ActiveUsers (snapshot s)) Broadcast.

(** ** The handlers

    Logging is left out; the clock and the random generator are read by the
    caller and passed in: [hhmm] is [datetime.now().strftime("%H%M")], [rnd]
    is [random.randint(1000, 9999)] and [now] is
    [datetime.now().isoformat()]. *)

Definition generate_guest_username (hhmm : string) (rnd : N) : string :=
  String.append "Guest" (String.append hhmm (PyStr.of_N rnd)).

(** The first statement of [connect]: a session without a username gets a
    generated one, and keeps it. *)
Definition connect_session (e : env) (hhmm : string) (rnd : N) : env :=
  match session e with
  | Some _ => e
  | None => mk_env (sid e) (Some (generate_guest_username hhmm rnd))
  end.

(** [connect] returns [None], or [False] from its [except] branch. *)
Definition connect (e : env) (hhmm : string) (rnd : N) (now : string)
  : M (option bool) :=
  let e := connect_session e hhmm rnd in
  try_except
    (uname <- session_username e ;;
     s <- get_state ;;
     put_users (PyDict.set (sid e) (mk_user uname None now) (active_users s)) ;;
     broadcast_active_users ;;
     ret None)
    (fun _ => ret (Some false)).

Definition disconnect (e : env) : M (option bool) :=
  try_except
    (s <- get_state ;;
     (if PyDict.mem (sid e) (active_users s) then
        u <- users_item (sid e) ;;
        put_users (PyDict.del (sid e) (active_users s))
      else ret tt) ;;
     broadcast_active_users ;;
     ret None)
    (fun _ => ret (Some false)).

(** [d["room"] = r] and [d.pop("room", None)] on a value of [active_users] *)
Definition set_room (r : string) (u : user_data) : user_data :=
  mk_user (username u) (Some r) (connected_at u).

Definition pop_room (u : user_data) : user_data :=
  mk_user (username u) None (connected_at u).

Definition on_join_body (e : env) (d : data) (now : string) : M unit :=
  uname <- session_username e ;;
  let room := get_default (d_room d) "General" in
  if negb (in_chat_rooms room) then ret tt
  else
    join_room (sid e) room ;;
    u <- users_item (sid e) ;;
    s <- get_state ;;
    put_users (PyDict.set (sid e) (set_room room u) (active_users s)) ;;
    emit "status"
         (Status (String.append uname " has joined the room") "join" now)
         (ToRoom room).

Definition on_join (e : env) (d : data) (now : string) : M unit :=
  try_except (on_join_body e d now) (fun _ => ret tt).

Definition on_leave_body (e : env) (d : data) (now : string) : M unit :=
  uname <- session_username e ;;
  let room := get_default (d_room d) "General" in
  leave_room (sid e) room ;;
  s <- get_state ;;
  (if PyDict.mem (sid e) (active_users s) then
     u <- users_item (sid e) ;;
     put_users (PyDict.set (sid e) (pop_room u) (active_users s))
   else ret tt) ;;
  emit "status"
       (Status (String.append uname " has left the room") "leave" now)
       (ToRoom room).

Definition on_leave (e : env) (d : data) (now : string) : M unit :=
  try_except (on_leave_body e d now) (fun _ => ret tt).

(** The [for sid, user_data in active_users.items()] loop of the private
    branch: the first entry whose username is the target gets the event and
    the handler returns. *)
Fixpoint deliver_private (items : list (string * user_data))
    (message uname target_user timestamp : string) : M unit :=
  match items with
  | [] => ret tt
  | (k, u) :: rest =>
      if String.eqb (username u) target_user then
        emit "private_message"
             (PrivateMessage message uname target_user timestamp)
             (ToRoom k)
      else deliver_private rest message uname target_user timestamp
  end.

Definition handle_messages_body (e : env) (d : data) (now : string) : M unit :=
  uname <- session_username e ;;
  let room := get_default (d_room d) "General" in
  let msg_type := get_default (d_type d) "message" in
  let message := PyStr.strip (get_default (d_msg d) EmptyString) in
  if negb (PyStr.truthy message) then ret tt
  else
    let timestamp := now in
    if String.eqb msg_type "private" then
      match d_target d with
      | None => ret tt
      | Some target_user =>
          if negb (PyStr.truthy target_user) then ret tt
          else
            s <- get_state ;;
            deliver_private (active_users s) message uname target_user timestamp
      end
    else
      if negb (in_chat_rooms room) then ret tt
      else emit "message" (Message message uname room timestamp) (ToRoom room).

Definition handle_messages (e : env) (d : data) (now : string) : M unit :=
  try_except (handle_messages_body e d now) (fun _ => ret tt).

(** ** The server as a transition system *)

Inductive event :=
| Connect (e : env) (hhmm : string) (rnd : N) (now : string)
| Disconnect (e : env)
| Join (e : env) (d : data) (now : string)
| Leave (e : env) (d : data) (now : string)
| Msg (e : env) (d : data) (now : string).

(** State and emitted events of a computation, its outcome dropped. *)
Definition effects {A} (m : M A) (s : server) : server * list emitted :=
  let '(_, s', out) := m s in (s', out).

Definition handle (ev : event) (s : server) : server * list emitted :=
  match ev with
  | Connect e hhmm rnd now => effects (connect e hhmm rnd now) s
  | Disconnect e => effects (disconnect e) s
  | Join e d now => effects (on_join e d now) s
  | Leave e d now => effects (on_leave e d now) s
  | Msg e d now => effects (handle_messages e d now) s
  end.

(** The state after a sequence of events, from [s]. *)
Definition run (t : list event) (s : server) : server :=
  fold_left (fun s ev => fst (handle ev s)) t s.

(** ** Connections as the transport sees them

    A connection is open from its [Connect] to its [Disconnect]; its identity
    is the username its session holds once [connect] has run. *)

Definition identity (e : env) (hhmm : string) (rnd : N) : string :=
  match session e with
  | Some u => u
  | None => generate_guest_username hhmm rnd
  end.

Definition drop_conn (k : string) (l : list (string * string))
  : list (string * string) :=
  filter (fun p => negb (String.eqb (fst p) k)) l.

(** The open connections after each event, newest first, each with its
    identity. *)
Definition open_step (l : list (string * string)) (ev : event)
  : list (string * string) :=
  match ev with
  | Connect e hhmm rnd _ => (sid e, identity e hhmm rnd) :: drop_conn (sid e) l
  | Disconnect e => drop_conn (sid e) l
  | _ => l
  end.

Definition open_connections (t : list event) : list (string * string) :=
  fold_left open_step t [].

(** The presence event both [connect] and [disconnect] broadcast, as it
    reads in state [s]. *)
Definition presence (s : server) : emitted :=
  mk_emit "active_users" (ActiveUsers (snapshot s)) Broadcast.

(** The status events of [on_join] and [on_leave]. *)
Definition status_join (uname r now : string) : emitted :=
  mk_emit "status"
          (Status (String.append uname " has joined the room") "join" now)
          (ToRoom r).

Definition status_leave (uname r now : string) : emitted :=
  mk_emit "status"
          (Status (String.append uname " has left the room") "leave" now)
          (ToRoom r).

(** The room field of the session of connection [k], if there is one. *)
Definition room_of (k : string) (s : server) : option string :=
  match PyDict.get k (active_users s) with
  | Some u => room u
  | None => None
  end.

(** Membership as the data model has it: a connection is in room [r] when
    its session's room field is [r]. *)
Definition member_of (k r : string) (s : server) : Prop :=
  room_of k s = Some r.

(** Every session that has a room has a configured one. *)
Definition rooms_configured (s : server) : Prop :=
  forall k u r, In (k, u) (active_users s) -> room u = Some r -> In r CHAT_ROOMS.

(** The state [connect] and [disconnect] leave. *)
Definition connected (e : env) (hhmm : string) (rnd : N) (now : string)
    (s : server) : server :=
  mk_server
    (PyDict.set (sid e) (mk_user (identity e hhmm rnd) None now) (active_users s))
    (rooms s).

Definition disconnected (e : env) (s : server) : server :=
  mk_server (PyDict.del (sid e) (active_users s)) (rooms s).

(** The event of the private branch, addressed to connection [k]. *)
Definition private_message (m uname target now k : string) : emitted :=
  mk_emit "private_message" (PrivateMessage m uname target now) (ToRoom k).

(** The registry seen as connection ids with their identities. *)
Definition idents (d : PyDict.dict user_data) : list (string * string) :=
  map (fun p => (fst p, username (snd p))) d.

(** The registry [s] holds exactly the connections [l], once each. *)
Definition tracks (s : server) (l : list (string * string)) : Prop :=
  NoDup (PyDict.keys (active_users s)) /\ Permutation (idents (active_users s)) l.

(** A reachable state for the examples: connection ["a"] has connected as
    Guest1111 and joined Tech. *)
Definition in_tech : server :=
  run [Connect (mk_env "a" (Some "Guest1111")) "0930" 1234 "t0";
       Join (mk_env "a" (Some "Guest1111")) (mk_data (Some "Tech") None None None) "t1"]
      init.

(** ** The page route

    [home] works on the browser session, from which the connection's session
    is taken when the socket connects.  It returns the session as it leaves it
    and the arguments it gives [render_template]. *)

Record page := mk_page {
  template : string;
  page_username : string;
  page_rooms : list string
}.

Definition home (sess : option string) (hhmm : string) (rnd : N)
  : option string * page :=
  let sess :=
    match sess with
    | Some u => Some u
    | None => Some (generate_guest_username hhmm rnd)
    end in
  (sess,
   mk_page "index.html"
           (match sess with Some u => u | None => EmptyString end)
           CHAT_ROOMS).

(** ** Reading events and texts *)

(** The connection an inbound event belongs to. *)
Definition event_sid (ev : event) : string :=
  match ev with
  | Connect e _ _ _ | Disconnect e | Join e _ _ | Leave e _ _ | Msg e _ _ => sid e
  end.

(** The text an outbound chat event carries. *)
Definition payload_text (p : payload) : option string :=
  match p with
  | Message m _ _ _ | PrivateMessage m _ _ _ => Some m
  | _ => None
  end.

(** The first and the last character of a string are whitespace. *)
Definition leading_space (s : string) : bool :=
  match s with
  | EmptyString => false
  | String c _ => PyStr.isspace c
  end.

Fixpoint trailing_space (s : string) : bool :=
  match s with
  | EmptyString => false
  | String c EmptyString => PyStr.isspace c
  | String _ s' => trailing_space s'
  end.

(** ** The transport's room table *)

(** The table after [join_room] and after [leave_room] for connection [k]. *)
Definition entered (k r : string) (t : list (string * string))
  : list (string * string) :=
  if existsb (pair_eqb (k, r)) t then t else t ++ [(k, r)].

Definition left_room (k r : string) (t : list (string * string))
  : list (string * string) :=
  filter (fun p => negb (pair_eqb (k, r) p)) t.


(** * Properties *)

(** ** Strings *)

Module PyStrFacts.
Import PyStr.

Lemma lstrip_blank (s : string) : blank s = true -> lstrip s = EmptyString.
Proof.
  induction s as [|c s IH]; simpl; [reflexivity|].
  intros H. apply andb_true_iff in H as [Hc Hs]. rewrite Hc. auto.
Qed.

Lemma rstrip_empty_blank (s : string) : rstrip s = EmptyString -> blank s = true.
Proof.
  induction s as [|c s IH]; simpl; [reflexivity|].
  destruct (rstrip s) eqn:E; [|discriminate].
  destruct (isspace c); [|discriminate].
  intros _. simpl. auto.
Qed.

Lemma lstrip_blank_inv (s : string) : blank (lstrip s) = true -> blank s = true.
Proof.
  induction s as [|c s IH]; simpl; [reflexivity|].
  destruct (isspace c) eqn:E; simpl; [auto|].
  rewrite E. discriminate.
Qed.

(** [s.strip()] is empty exactly when [s] holds nothing but whitespace. *)
Lemma strip_empty_iff (s : string) : strip s = EmptyString <-> blank s = true.
Proof.
  unfold strip. split.
  - intros H. apply lstrip_blank_inv, rstrip_empty_blank, H.
  - intros H. rewrite (lstrip_blank _ H). reflexivity.
Qed.

End PyStrFacts.

(** ** Dictionaries *)

Module PyDictFacts.
Import PyDict.

Section Facts.
Context {V : Type}.
Implicit Types (d : dict V) (k : string) (v : V).

Lemma mem_false_get k d : mem k d = false -> get k d = None.
Proof.
  induction d as [|[k' v'] d IH]; simpl; [reflexivity|].
  destruct (String.eqb k' k); simpl; [discriminate | exact IH].
Qed.

Lemma mem_true_get k d : mem k d = true -> exists v, get k d = Some v.
Proof.
  induction d as [|[k' v'] d IH]; simpl; [discriminate|].
  destruct (String.eqb k' k); simpl; [eauto | exact IH].
Qed.

Lemma get_some_mem k d v : get k d = Some v -> mem k d = true.
Proof.
  induction d as [|[k' v'] d IH]; simpl; [discriminate|].
  destruct (String.eqb k' k); simpl; auto.
Qed.

Lemma del_absent k d : mem k d = false -> del k d = d.
Proof.
  induction d as [|[k' v'] d IH]; simpl; [reflexivity|].
  destruct (String.eqb k' k); simpl; [discriminate|].
  intros H. f_equal. exact (IH H).
Qed.

Lemma mem_del k d : mem k (del k d) = false.
Proof.
  induction d as [|[k' v'] d IH]; simpl; [reflexivity|].
  destruct (String.eqb k' k) eqn:E; simpl; [exact IH|].
  rewrite E. exact IH.
Qed.

Lemma get_set k v d : get k (set k v d) = Some v.
Proof.
  induction d as [|[k' v'] d IH]; simpl.
  - rewrite String.eqb_refl. reflexivity.
  - destruct (String.eqb k' k) eqn:E; simpl; rewrite E; auto.
Qed.

Lemma set_same k v d : get k d = Some v -> set k v d = d.
Proof.
  induction d as [|[k' v'] d IH]; simpl; [discriminate|].
  destruct (String.eqb k' k); intros H.
  - congruence.
  - rewrite (IH H). reflexivity.
Qed.

Lemma set_set k v w d : set k w (set k v d) = set k w d.
Proof.
  induction d as [|[k' v'] d IH]; simpl.
  - rewrite String.eqb_refl. reflexivity.
  - destruct (String.eqb k' k) eqn:E; simpl; rewrite E; congruence.
Qed.

Lemma keys_set_present k v d :
  mem k d = true -> keys (set k v d) = keys d.
Proof.
  induction d as [|[k' v'] d IH]; simpl; [discriminate|].
  destruct (String.eqb k' k); simpl; intros H; [reflexivity|].
  f_equal. exact (IH H).
Qed.

Lemma keys_set_absent k v d :
  mem k d = false -> keys (set k v d) = keys d ++ [k].
Proof.
  induction d as [|[k' v'] d IH]; simpl; [reflexivity|].
  destruct (String.eqb k' k); simpl; intros H; [discriminate|].
  f_equal. exact (IH H).
Qed.

Lemma mem_keys k d : mem k d = true <-> In k (keys d).
Proof.
  induction d as [|[k' v'] d IH]; simpl; [split; [discriminate | tauto]|].
  destruct (String.eqb_spec k' k); simpl.
  - split; auto.
  - rewrite IH. split; [auto | intros [H|H]; [contradiction | exact H]].
Qed.

Lemma in_set k v d k' v' :
  In (k', v') (set k v d) -> (k' = k /\ v' = v) \/ In (k', v') d.
Proof.
  induction d as [|[k0 v0] d IH]; simpl.
  - intros [H|[]]. inversion H. auto.
  - destruct (String.eqb_spec k0 k); simpl.
    + intros [H|H]; [inversion H; subst; auto | auto].
    + intros [H|H]; [auto | destruct (IH H); auto].
Qed.

Lemma in_del k d p : In p (del k d) -> In p d.
Proof. unfold del. intros H. apply filter_In in H. tauto. Qed.

End Facts.
End PyDictFacts.

(** ** What each handler does to the state *)

Import PyDictFacts.

Ltac unfold_py :=
  cbv beta iota zeta delta
    [try_except bind ret raise get_state put_users put_rooms emit
     session_username users_item join_room leave_room
     broadcast_active_users].

Lemma connect_run e hhmm rnd now s :
  connect e hhmm rnd now s
  = (Ret None, connected e hhmm rnd now s, [presence (connected e hhmm rnd now s)]).
Proof.
  unfold connect, connect_session, connected, identity.
  destruct e as [k [u|]]; reflexivity.
Qed.

Lemma disconnect_run e s :
  disconnect e s = (Ret None, disconnected e s, [presence (disconnected e s)]).
Proof.
  unfold disconnect, disconnected. unfold_py.
  destruct (PyDict.mem (sid e) (active_users s)) eqn:Hm.
  - destruct (mem_true_get _ _ Hm) as [u Hu]. rewrite Hu. reflexivity.
  - rewrite (del_absent _ _ Hm). destruct s; reflexivity.
Qed.

Lemma deliver_private_state items m u t now s :
  fst (deliver_private items m u t now s) = (Ret tt, s).
Proof.
  induction items as [|[k v] items IH]; simpl; [reflexivity|].
  destruct (String.eqb (username v) t); [reflexivity | exact IH].
Qed.

(** [handle_messages] returns [None] and leaves the state as it was. *)
Lemma handle_messages_state e d now s :
  fst (handle_messages e d now s) = (Ret tt, s).
Proof.
  unfold handle_messages, handle_messages_body. unfold_py.
  destruct (session e) as [u|]; [|reflexivity].
  destruct (negb (PyStr.truthy _)); [reflexivity|].
  destruct (String.eqb _ "private").
  - destruct (d_target d) as [t|]; [|reflexivity].
    destruct (negb (PyStr.truthy t)); [reflexivity|].
    pose proof (deliver_private_state (active_users s)
      (PyStr.strip (get_default (d_msg d) EmptyString)) u t now s) as H.
    destruct (deliver_private _ _ _ _ _ s) as [[o s'] out].
    simpl in H. inversion H; subst. reflexivity.
  - destruct (negb (in_chat_rooms _)); reflexivity.
Qed.

(** The registry after [on_join]: the session of the connection, if there is
    one, has its room set, when the handler got as far as that. *)
Lemma on_join_users e d now s :
  active_users (snd (fst (on_join e d now s))) = active_users s
  \/ exists u,
       PyDict.get (sid e) (active_users s) = Some u
       /\ in_chat_rooms (get_default (d_room d) "General") = true
       /\ active_users (snd (fst (on_join e d now s)))
          = PyDict.set (sid e) (set_room (get_default (d_room d) "General") u)
                       (active_users s).
Proof.
  unfold on_join, on_join_body. unfold_py.
  destruct (session e) as [n|]; [|left; reflexivity].
  destruct (in_chat_rooms _) eqn:Hr; simpl; [|left; reflexivity].
  destruct (existsb _ (rooms s)); simpl;
    (destruct (PyDict.get (sid e) (active_users s)) as [u|] eqn:Hg;
     simpl; [right; exists u; auto | left; reflexivity]).
Qed.

(** The registry after [on_leave]: the room field of the session of the
    connection, if there is one, is gone, when the handler got as far as
    that. *)
Lemma on_leave_users e d now s :
  active_users (snd (fst (on_leave e d now s))) = active_users s
  \/ exists u,
       PyDict.get (sid e) (active_users s) = Some u
       /\ active_users (snd (fst (on_leave e d now s)))
          = PyDict.set (sid e) (pop_room u) (active_users s).
Proof.
  unfold on_leave, on_leave_body. unfold_py.
  destruct (session e) as [n|]; [|left; reflexivity].
  simpl.
  destruct (PyDict.mem (sid e) (active_users s)) eqn:Hm; [|left; reflexivity].
  destruct (mem_true_get _ _ Hm) as [u Hu].
  right. exists u. split; [exact Hu|]. simpl. rewrite Hu. reflexivity.
Qed.

Lemma in_chat_rooms_iff (r : string) : in_chat_rooms r = true <-> In r CHAT_ROOMS.
Proof.
  unfold in_chat_rooms. rewrite existsb_exists. split.
  - intros [x [Hin Heq]]. apply String.eqb_eq in Heq. subst. exact Hin.
  - intros Hin. exists r. split; [exact Hin | apply String.eqb_refl].
Qed.

Lemma not_in_chat_rooms (r : string) : ~ In r CHAT_ROOMS -> in_chat_rooms r = false.
Proof.
  intros H. destruct (in_chat_rooms r) eqn:E; [|reflexivity].
  apply in_chat_rooms_iff in E. contradiction.
Qed.

(** ** Joining *)

(** C3: a join whose room is not one of the configured rooms does nothing:
    the handler returns normally, the whole server state (every session, its
    room field, and the transport's room table) is what it was, and no event
    is emitted, neither a status nor an error. *)
Theorem join_unconfigured_room_is_noop
    (e : env) (d : data) (now : string) (s : server) (r : string) :
  d_room d = Some r ->
  ~ In r CHAT_ROOMS ->
  on_join e d now s = (Ret tt, s, []).
Proof.
  intros Hd Hr. apply not_in_chat_rooms in Hr.
  unfold on_join, on_join_body. unfold_py.
  rewrite Hd. simpl. rewrite Hr.
  destruct (session e); reflexivity.
Qed.

Lemma join_unconfigured_room_is_noop_witness :
  on_join (mk_env "a" (Some "Guest1111"))
          (mk_data (Some "Lobby") None None None) "t"
          (mk_server [("a", mk_user "Guest1111" (Some "Tech") "t0")] [("a", "Tech")])
  = (Ret tt,
     mk_server [("a", mk_user "Guest1111" (Some "Tech") "t0")] [("a", "Tech")],
     []).
Proof.
  apply (join_unconfigured_room_is_noop _ _ _ _ "Lobby").
  - reflexivity.
  - simpl. intros [H|[H|[H|[H|[]]]]]; discriminate H.
Defined.

(** C10: a join of a configured room for a connection id that has no entry
    in the registry emits nothing and leaves the registry as it was, with no
    session created; the handler still returns normally.  When the session
    holds a username the body fails with [KeyError] on the connection id,
    at the assignment of the room field and so before the emit. *)
Theorem join_unregistered_connection_aborts
    (e : env) (d : data) (now : string) (s : server) :
  in_chat_rooms (get_default (d_room d) "General") = true ->
  PyDict.mem (sid e) (active_users s) = false ->
  fst (fst (on_join e d now s)) = Ret tt
  /\ snd (on_join e d now s) = []
  /\ active_users (snd (fst (on_join e d now s))) = active_users s
  /\ (forall u, session e = Some u ->
        fst (fst (on_join_body e d now s)) = Raise (KeyError (sid e))
        /\ snd (on_join_body e d now s) = []).
Proof.
  intros Hr Hm. apply mem_false_get in Hm.
  unfold on_join, on_join_body. unfold_py. rewrite Hr. simpl.
  destruct (session e) as [n|].
  - destruct (existsb _ (rooms s)); simpl; rewrite Hm; simpl;
      repeat split; intros; reflexivity.
  - repeat split; intros; discriminate.
Qed.

Lemma join_unregistered_connection_aborts_witness :
  let e := mk_env "zz" (Some "Guest2222") in
  let d := mk_data (Some "General") None None None in
  let s := mk_server [("a", mk_user "Guest1111" None "t0")] [] in
  fst (fst (on_join e d "t" s)) = Ret tt
  /\ snd (on_join e d "t" s) = []
  /\ active_users (snd (fst (on_join e d "t" s))) = active_users s
  /\ (forall u, session e = Some u ->
        fst (fst (on_join_body e d "t" s)) = Raise (KeyError (sid e))
        /\ snd (on_join_body e d "t" s) = []).
Proof.
  intros e d s. apply (join_unregistered_connection_aborts e d "t" s); reflexivity.
Defined.

(** ** Messages *)

(** C6: a message whose text is empty once stripped (an absent [msg] counts
    as the empty string) is dropped: the handler returns normally, nothing is
    emitted to a room, to a connection or back to the sender, and the state
    is what it was. *)
Theorem blank_message_is_dropped
    (e : env) (d : data) (now : string) (s : server) :
  PyStr.strip (get_default (d_msg d) EmptyString) = EmptyString ->
  handle_messages e d now s = (Ret tt, s, []).
Proof.
  intros Hb. unfold handle_messages, handle_messages_body. unfold_py.
  rewrite Hb. simpl. destruct (session e); reflexivity.
Qed.

Lemma blank_message_is_dropped_witness :
  handle_messages (mk_env "a" (Some "Guest1111"))
                  (mk_data (Some "General") (Some "private")
                           (Some (String (ascii_of_nat 9) "  ")) (Some "Guest1111"))
                  "t"
                  (mk_server [("a", mk_user "Guest1111" (Some "General") "t0")] [])
  = (Ret tt, mk_server [("a", mk_user "Guest1111" (Some "General") "t0")] [], []).
Proof.
  apply blank_message_is_dropped. reflexivity.
Defined.

(** ** Disconnecting *)

(** C9: whatever the registry holds and whichever connection disconnects,
    [disconnect] emits one event, the presence list broadcast to everyone:
    nothing it emits is a status event or is addressed to a room.  The
    transport's room table is not touched either. *)
Theorem disconnect_emits_presence_only (e : env) (s : server) :
  snd (disconnect e s) = [presence (snd (fst (disconnect e s)))]
  /\ (forall x, In x (snd (disconnect e s)) ->
        ev_name x = "active_users" /\ ev_name x <> "status"
        /\ ev_dest x = Broadcast)
  /\ rooms (snd (fst (disconnect e s))) = rooms s.
Proof.
  rewrite disconnect_run. simpl. repeat split.
  - destruct H as [H|[]]. subst. reflexivity.
  - destruct H as [H|[]]. subst. simpl. discriminate.
  - destruct H as [H|[]]. subst. reflexivity.
Qed.

(** C5: a disconnect for a connection id with no entry in the registry
    returns normally, leaves the state as it was and broadcasts the presence
    list once; and after any disconnect the connection has no entry, so a
    second disconnect of it is that case. *)
Theorem disconnect_unregistered_is_noop (e : env) (s : server) :
  (PyDict.mem (sid e) (active_users s) = false ->
   disconnect e s = (Ret None, s, [presence s]))
  /\ (let s1 := snd (fst (disconnect e s)) in
      PyDict.mem (sid e) (active_users s1) = false
      /\ disconnect e s1 = (Ret None, s1, [presence s1])).
Proof.
  assert (Habs : forall s0, PyDict.mem (sid e) (active_users s0) = false ->
                   disconnect e s0 = (Ret None, s0, [presence s0])).
  { intros s0 Hm. rewrite disconnect_run. unfold disconnected.
    rewrite (del_absent _ _ Hm). destruct s0; reflexivity. }
  split; [apply Habs|].
  rewrite disconnect_run. simpl.
  assert (Hm : PyDict.mem (sid e) (active_users (disconnected e s)) = false)
    by apply mem_del.
  split; [exact Hm | apply Habs, Hm].
Qed.

Lemma disconnect_unregistered_is_noop_witness :
  let s := mk_server [("a", mk_user "Guest1111" (Some "Tech") "t0")] [("a", "Tech")] in
  disconnect (mk_env "zz" None) s = (Ret None, s, [presence s]).
Proof.
  intros s.
  apply (proj1 (disconnect_unregistered_is_noop (mk_env "zz" None) s)).
  reflexivity.
Defined.

(** ** Leaving *)

Lemma on_leave_run e d now s u :
  session e = Some u ->
  on_leave e d now s
  = (Ret tt,
     mk_server
       (match PyDict.get (sid e) (active_users s) with
        | Some v => PyDict.set (sid e) (pop_room v) (active_users s)
        | None => active_users s
        end)
       (filter (fun p => negb (pair_eqb (sid e, get_default (d_room d) "General") p))
               (rooms s)),
     [status_leave u (get_default (d_room d) "General") now]).
Proof.
  intros Hs. unfold on_leave, on_leave_body. unfold_py. rewrite Hs. simpl.
  destruct (PyDict.mem (sid e) (active_users s)) eqn:Hm.
  - destruct (mem_true_get _ _ Hm) as [v Hv]. simpl. rewrite !Hv. reflexivity.
  - rewrite (mem_false_get _ _ Hm). reflexivity.
Qed.

Lemma on_join_run e d now s u v :
  session e = Some u ->
  PyDict.get (sid e) (active_users s) = Some v ->
  in_chat_rooms (get_default (d_room d) "General") = true ->
  on_join e d now s
  = (Ret tt,
     mk_server
       (PyDict.set (sid e) (set_room (get_default (d_room d) "General") v)
                   (active_users s))
       (if existsb (pair_eqb (sid e, get_default (d_room d) "General")) (rooms s)
        then rooms s
        else rooms s ++ [(sid e, get_default (d_room d) "General")]),
     [status_join u (get_default (d_room d) "General") now]).
Proof.
  intros Hs Hv Hr. unfold on_join, on_join_body. unfold_py.
  rewrite Hs, Hr. simpl.
  destruct (existsb _ (rooms s)); simpl; rewrite Hv; reflexivity.
Qed.

(** C4, as stated, fails: the connection is in Tech, not in General, and a
    leave of General is no no-op on its session, it takes the room field
    away. *)
Lemma leave_of_other_room_changes_session :
  let e := mk_env "a" (Some "Guest1111") in
  let d := mk_data (Some "General") None None None in
  room_of "a" in_tech = Some "Tech"
  /\ ~ member_of "a" "General" in_tech
  /\ room_of "a" (snd (fst (on_leave e d "t2" in_tech))) = None
  /\ active_users (snd (fst (on_leave e d "t2" in_tech))) <> active_users in_tech.
Proof.
  cbv zeta. repeat split.
  - unfold member_of. vm_compute. discriminate.
  - vm_compute. discriminate.
Qed.

(** C4, amended: a leave, whether or not the connection is in the room it
    names, returns normally and emits exactly one status event of type
    "leave", with the identity's message and the timestamp, to that room;
    in the registry it clears the room field of the connection's session
    whichever room that field names, and the registry stays as it was when
    the connection has no session or its session has no room field. *)
Theorem leave_clears_room_and_notifies
    (e : env) (d : data) (now : string) (s : server) (u : string) :
  session e = Some u ->
  fst (fst (on_leave e d now s)) = Ret tt
  /\ snd (on_leave e d now s)
     = [mk_emit "status"
                (Status (String.append u " has left the room") "leave" now)
                (ToRoom (get_default (d_room d) "General"))]
  /\ active_users (snd (fst (on_leave e d now s)))
     = match PyDict.get (sid e) (active_users s) with
       | Some v => PyDict.set (sid e) (pop_room v) (active_users s)
       | None => active_users s
       end
  /\ room_of (sid e) (snd (fst (on_leave e d now s))) = None
  /\ (room_of (sid e) s = None ->
      active_users (snd (fst (on_leave e d now s))) = active_users s).
Proof.
  intros Hs. rewrite (on_leave_run _ _ _ _ _ Hs). simpl.
  repeat split; unfold room_of; simpl;
    destruct (PyDict.get (sid e) (active_users s)) as [v|] eqn:Hv; try reflexivity.
  - rewrite get_set. reflexivity.
  - rewrite Hv. reflexivity.
  - intros Hr. apply set_same. rewrite Hv. f_equal.
    destruct v as [n r c]. simpl in Hr. subst. reflexivity.
Qed.

Lemma leave_clears_room_and_notifies_witness :
  let e := mk_env "b" (Some "Guest2222") in
  let d := mk_data (Some "Games") None None None in
  snd (on_leave e d "t2" in_tech)
  = [mk_emit "status" (Status "Guest2222 has left the room" "leave" "t2")
             (ToRoom "Games")].
Proof.
  intros e d.
  exact (proj1 (proj2 (leave_clears_room_and_notifies e d "t2" in_tech "Guest2222"
                         eq_refl))).
Defined.

(** ** Join then leave *)

(** C8, as stated, fails: a session that is in Tech before it joins General
    and leaves General ends with its room field cleared, which is not the
    state it had before the join. *)
Lemma join_leave_does_not_restore_room :
  let e := mk_env "a" (Some "Guest1111") in
  let d := mk_data (Some "General") None None None in
  let s1 := snd (fst (on_join e d "t2" in_tech)) in
  let s2 := snd (fst (on_leave e d "t3" s1)) in
  PyDict.mem "a" (active_users in_tech) = true
  /\ In "General" CHAT_ROOMS
  /\ room_of "a" in_tech = Some "Tech"
  /\ room_of "a" s2 = None
  /\ room_of "a" s2 <> room_of "a" in_tech.
Proof.
  cbv zeta. repeat split.
  - simpl. auto.
  - vm_compute. discriminate.
Qed.

(** C8, amended: for a connection that has a session and a configured room,
    a join of the room followed by a leave of it emits one status event
    each, "join" then "leave", to that room, and leaves the session's room
    field cleared and the rest of the registry as it was; that is the
    registry from before the join when the session had no room then. *)
Theorem join_then_leave_clears_room
    (e : env) (d : data) (now1 now2 : string) (s : server)
    (u r : string) (v : user_data) :
  session e = Some u ->
  PyDict.get (sid e) (active_users s) = Some v ->
  d_room d = Some r ->
  In r CHAT_ROOMS ->
  let s1 := snd (fst (on_join e d now1 s)) in
  let s2 := snd (fst (on_leave e d now2 s1)) in
  snd (on_join e d now1 s) = [status_join u r now1]
  /\ snd (on_leave e d now2 s1) = [status_leave u r now2]
  /\ room_of (sid e) s1 = Some r
  /\ room_of (sid e) s2 = None
  /\ active_users s2 = PyDict.set (sid e) (pop_room v) (active_users s)
  /\ (room v = None -> active_users s2 = active_users s).
Proof.
  intros Hs Hv Hd Hr. apply in_chat_rooms_iff in Hr.
  assert (Hdef : get_default (d_room d) "General" = r) by (rewrite Hd; reflexivity).
  rewrite <- Hdef in Hr.
  cbv zeta. rewrite (on_join_run _ _ _ _ _ _ Hs Hv Hr).
  rewrite (on_leave_run _ _ _ _ _ Hs). simpl. rewrite Hdef.
  unfold room_of. simpl. rewrite !get_set. cbv iota beta.
  rewrite set_set. simpl.
  repeat split.
  intros Hn. apply set_same. rewrite Hv. f_equal.
  destruct v as [n r0 c]. simpl in Hn. subst. reflexivity.
Qed.

Lemma join_then_leave_clears_room_witness :
  let e := mk_env "a" (Some "Guest1111") in
  let d := mk_data (Some "General") None None None in
  let s := mk_server [("a", mk_user "Guest1111" None "t0")] [] in
  let s1 := snd (fst (on_join e d "t1" s)) in
  let s2 := snd (fst (on_leave e d "t2" s1)) in
  snd (on_join e d "t1" s) = [status_join "Guest1111" "General" "t1"]
  /\ snd (on_leave e d "t2" s1) = [status_leave "Guest1111" "General" "t2"]
  /\ room_of "a" s1 = Some "General"
  /\ room_of "a" s2 = None
  /\ active_users s2
     = PyDict.set "a" (pop_room (mk_user "Guest1111" None "t0")) (active_users s)
  /\ (room (mk_user "Guest1111" None "t0") = None -> active_users s2 = active_users s).
Proof.
  intros e d s.
  apply (join_then_leave_clears_room e d "t1" "t2" s "Guest1111" "General"
           (mk_user "Guest1111" None "t0")); try reflexivity.
  simpl. auto.
Defined.

(** ** Private messages *)

Lemma deliver_private_first before k v after m u t now s :
  username v = t ->
  (forall p, In p before -> username (snd p) <> t) ->
  deliver_private (before ++ (k, v) :: after) m u t now s
  = (Ret tt, s, [private_message m u t now k]).
Proof.
  intros Hv. induction before as [|[k0 v0] before IH]; simpl; intros Hb.
  - rewrite Hv, String.eqb_refl. reflexivity.
  - destruct (String.eqb_spec (username v0) t) as [E|E].
    + exfalso. apply (Hb (k0, v0)); auto.
    + apply IH. intros p Hp. apply Hb. auto.
Qed.

Lemma deliver_private_none items m u t now s :
  (forall p, In p items -> username (snd p) <> t) ->
  deliver_private items m u t now s = (Ret tt, s, []).
Proof.
  induction items as [|[k0 v0] items IH]; simpl; intros Hb; [reflexivity|].
  destruct (String.eqb_spec (username v0) t) as [E|E].
  - exfalso. apply (Hb (k0, v0)); auto.
  - apply IH. intros p Hp. apply Hb. auto.
Qed.

(** C2: a private message whose text is not empty once stripped.  With a
    non-empty target, the registry is scanned in its order and the first
    session whose username is the target gets the one event emitted, a
    [private_message] carrying the stripped text, the sender, the target and
    the timestamp, addressed to that session's connection alone; sessions
    after it that share the username get nothing.  With no session of that
    username, or with the target absent or empty, nothing is emitted.  In
    every case the handler returns normally and the state is unchanged. *)
Theorem private_message_goes_to_first_match
    (e : env) (d : data) (now : string) (s : server) (u m : string) :
  session e = Some u ->
  d_type d = Some "private" ->
  PyStr.strip (get_default (d_msg d) EmptyString) = m ->
  m <> EmptyString ->
  fst (handle_messages e d now s) = (Ret tt, s)
  /\ (forall t before k v after,
        d_target d = Some t -> t <> EmptyString ->
        active_users s = before ++ (k, v) :: after ->
        username v = t ->
        (forall p, In p before -> username (snd p) <> t) ->
        snd (handle_messages e d now s)
        = [mk_emit "private_message" (PrivateMessage m u t now) (ToRoom k)])
  /\ (forall t,
        d_target d = Some t ->
        (forall p, In p (active_users s) -> username (snd p) <> t) ->
        snd (handle_messages e d now s) = [])
  /\ (d_target d = None \/ d_target d = Some EmptyString ->
      snd (handle_messages e d now s) = []).
Proof.
  intros Hs Ht Hm Hne.
  split; [apply handle_messages_state|].
  assert (Htr : PyStr.truthy m = true) by (destruct m; [contradiction | reflexivity]).
  unfold handle_messages, handle_messages_body. unfold_py.
  rewrite Hs, Ht, Hm, Htr. simpl.
  repeat split.
  - intros t before k v after Hd Hte Hu Hv Hb. rewrite Hd.
    assert (Htt : PyStr.truthy t = true) by (destruct t; [contradiction | reflexivity]).
    rewrite Htt. simpl. rewrite Hu.
    rewrite (deliver_private_first _ _ _ _ _ _ _ _ _ Hv Hb). reflexivity.
  - intros t Hd Hb. rewrite Hd.
    destruct (PyStr.truthy t); simpl; [|reflexivity].
    rewrite (deliver_private_none _ _ _ _ _ _ Hb). reflexivity.
  - intros [Hd|Hd]; rewrite Hd; reflexivity.
Qed.

Lemma private_message_goes_to_first_match_witness :
  let s := mk_server [("a", mk_user "Guest1111" None "t0");
                      ("b", mk_user "Guest2222" (Some "General") "t1");
                      ("c", mk_user "Guest2222" None "t2")] [("b", "General")] in
  let e := mk_env "a" (Some "Guest1111") in
  let d := mk_data None (Some "private") (Some " psst ") (Some "Guest2222") in
  snd (handle_messages e d "t3" s)
  = [mk_emit "private_message"
             (PrivateMessage "psst" "Guest1111" "Guest2222" "t3") (ToRoom "b")].
Proof.
  intros s e d.
  assert (Hne : "psst" <> EmptyString) by discriminate.
  destruct (private_message_goes_to_first_match e d "t3" s "Guest1111" "psst"
              eq_refl eq_refl eq_refl Hne) as [_ [Hfirst _]].
  apply (Hfirst "Guest2222" [("a", mk_user "Guest1111" None "t0")] "b"
                (mk_user "Guest2222" (Some "General") "t1")
                [("c", mk_user "Guest2222" None "t2")]).
  - reflexivity.
  - discriminate.
  - reflexivity.
  - reflexivity.
  - intros p [Hp|[]]. subst p. simpl. discriminate.
Defined.

(** ** Reachable states *)

Lemma effects_state {A} (m : M A) s : fst (effects m s) = snd (fst (m s)).
Proof. unfold effects. destruct (m s) as [[o s'] out]. reflexivity. Qed.

Lemma effects_emitted {A} (m : M A) s : snd (effects m s) = snd (m s).
Proof. unfold effects. destruct (m s) as [[o s'] out]. reflexivity. Qed.

Lemma handle_keeps_rooms_configured ev s :
  rooms_configured s -> rooms_configured (fst (handle ev s)).
Proof.
  intros Hinv. destruct ev as [e hhmm rnd now|e|e d now|e d now|e d now];
    simpl; rewrite effects_state.
  - rewrite connect_run. simpl. intros k u r Hin Hr.
    apply in_set in Hin as [[_ Hu]|Hin]; [subst u; discriminate | eauto].
  - rewrite disconnect_run. simpl. intros k u r Hin Hr.
    apply in_del in Hin. eauto.
  - destruct (on_join_users e d now s) as [Heq|[v [Hv [Hc Heq]]]];
      intros k u r Hin Hr; rewrite Heq in Hin; [eauto|].
    apply in_set in Hin as [[_ Hu]|Hin]; [|eauto].
    subst u. simpl in Hr. inversion Hr; subst.
    apply in_chat_rooms_iff, Hc.
  - destruct (on_leave_users e d now s) as [Heq|[v [Hv Heq]]];
      intros k u r Hin Hr; rewrite Heq in Hin; [eauto|].
    apply in_set in Hin as [[_ Hu]|Hin]; [subst u; discriminate | eauto].
  - pose proof (handle_messages_state e d now s) as H.
    destruct (handle_messages e d now s) as [[o s'] out]. simpl in *.
    inversion H; subst. exact Hinv.
Qed.

Lemma run_keeps_rooms_configured t s :
  rooms_configured s -> rooms_configured (run t s).
Proof.
  revert s. induction t as [|ev t IH]; intros s Hinv; simpl; [exact Hinv|].
  apply IH, handle_keeps_rooms_configured, Hinv.
Qed.

(** C7: in the state reached from the empty server by any sequence of
    connect, disconnect, join, leave and message events, every session that
    has a room field has one of General, Random, Tech, Games in it. *)
Theorem reachable_rooms_are_configured (t : list event) (k r : string) (u : user_data) :
  In (k, u) (active_users (run t init)) ->
  room u = Some r ->
  r = "General" \/ r = "Random" \/ r = "Tech" \/ r = "Games".
Proof.
  intros Hin Hr.
  assert (H : In r CHAT_ROOMS).
  { apply (run_keeps_rooms_configured t init) with (k := k) (u := u); auto.
    intros k0 u0 r0 []. }
  simpl in H. intuition auto.
Qed.

Lemma reachable_rooms_are_configured_witness :
  "Tech" = "General" \/ "Tech" = "Random" \/ "Tech" = "Tech" \/ "Tech" = "Games".
Proof.
  apply (reachable_rooms_are_configured
           [Connect (mk_env "a" (Some "Guest1111")) "0930" 1234 "t0";
            Join (mk_env "a" (Some "Guest1111"))
                 (mk_data (Some "Tech") None None None) "t1"]
           "a" "Tech" (mk_user "Guest1111" (Some "Tech") "t0")).
  - simpl. left. reflexivity.
  - reflexivity.
Defined.

(** ** Presence *)

Lemma snapshot_idents s : snapshot s = map snd (idents (active_users s)).
Proof.
  unfold snapshot, idents, PyDict.values. rewrite !map_map. reflexivity.
Qed.

Lemma keys_idents d : map fst (idents d) = PyDict.keys d.
Proof. unfold idents, PyDict.keys. rewrite map_map. reflexivity. Qed.

Lemma idents_del k d : idents (PyDict.del k d) = drop_conn k (idents d).
Proof.
  induction d as [|[k0 v0] d IH]; simpl; [reflexivity|].
  destruct (String.eqb k0 k); simpl; [exact IH | f_equal; exact IH].
Qed.

Lemma keys_del k (d : PyDict.dict user_data) :
  PyDict.keys (PyDict.del k d)
  = filter (fun x => negb (String.eqb x k)) (PyDict.keys d).
Proof.
  induction d as [|[k0 v0] d IH]; simpl; [reflexivity|].
  destruct (String.eqb k0 k); simpl; [exact IH | f_equal; exact IH].
Qed.

Lemma drop_conn_absent k l : ~ In k (map fst l) -> drop_conn k l = l.
Proof.
  induction l as [|[k0 i0] l IH]; simpl; intros H; [reflexivity|].
  destruct (String.eqb_spec k0 k) as [E|E]; simpl.
  - exfalso. auto.
  - f_equal. apply IH. auto.
Qed.

Lemma drop_conn_perm k l l' :
  Permutation l l' -> Permutation (drop_conn k l) (drop_conn k l').
Proof.
  induction 1 as [|x l l' _ IH|x y l|l l' l'' _ IH1 _ IH2]; simpl.
  - constructor.
  - destruct (negb (String.eqb (fst x) k)); [constructor|]; exact IH.
  - destruct (negb (String.eqb (fst x) k)), (negb (String.eqb (fst y) k));
      try apply Permutation_refl. constructor.
  - eapply Permutation_trans; eauto.
Qed.

Lemma idents_set_perm k v d :
  NoDup (PyDict.keys d) ->
  Permutation (idents (PyDict.set k v d))
              ((k, username v) :: drop_conn k (idents d)).
Proof.
  induction d as [|[k0 v0] d IH]; simpl; intros Hnd.
  - apply Permutation_refl.
  - inversion Hnd as [|x xs Hnotin Hnd']; subst.
    destruct (String.eqb_spec k0 k) as [E|E]; simpl.
    + subst k0. rewrite drop_conn_absent; [apply Permutation_refl|].
      rewrite keys_idents. exact Hnotin.
    + eapply Permutation_trans; [apply perm_skip, IH, Hnd' | apply perm_swap].
Qed.

Lemma idents_set_same_name k v w d :
  PyDict.get k d = Some v -> username w = username v ->
  idents (PyDict.set k w d) = idents d.
Proof.
  intros Hg Hw. induction d as [|[k0 v0] d IH]; simpl in *; [discriminate|].
  destruct (String.eqb k0 k); simpl.
  - inversion Hg; subst. rewrite Hw. reflexivity.
  - f_equal. apply IH, Hg.
Qed.

Lemma nodup_keys_set k v (d : PyDict.dict user_data) :
  NoDup (PyDict.keys d) -> NoDup (PyDict.keys (PyDict.set k v d)).
Proof.
  intros Hnd. destruct (PyDict.mem k d) eqn:Hm.
  - rewrite keys_set_present; assumption.
  - rewrite keys_set_absent by assumption.
    apply (Permutation_NoDup (Permutation_cons_append _ _)).
    constructor; [|exact Hnd].
    intros Hin. apply mem_keys in Hin. congruence.
Qed.

Lemma handle_tracks ev s l :
  tracks s l -> tracks (fst (handle ev s)) (open_step l ev).
Proof.
  intros [Hnd Hp]. unfold tracks.
  destruct ev as [e hhmm rnd now|e|e d now|e d now|e d now];
    simpl; rewrite effects_state.
  - rewrite connect_run. unfold connected. cbn [fst snd active_users].
    split; [apply nodup_keys_set, Hnd|].
    eapply Permutation_trans; [apply idents_set_perm, Hnd|].
    apply perm_skip, drop_conn_perm, Hp.
  - rewrite disconnect_run. unfold disconnected. cbn [fst snd active_users].
    split.
    + rewrite keys_del. apply NoDup_filter, Hnd.
    + rewrite idents_del. apply drop_conn_perm, Hp.
  - destruct (on_join_users e d now s) as [Heq|[v [Hv [_ Heq]]]];
      rewrite Heq; [split; assumption|].
    split.
    + rewrite keys_set_present; [exact Hnd | eapply get_some_mem, Hv].
    + rewrite (idents_set_same_name _ v); auto.
  - destruct (on_leave_users e d now s) as [Heq|[v [Hv Heq]]];
      rewrite Heq; [split; assumption|].
    split.
    + rewrite keys_set_present; [exact Hnd | eapply get_some_mem, Hv].
    + rewrite (idents_set_same_name _ v); auto.
  - pose proof (handle_messages_state e d now s) as H.
    destruct (handle_messages e d now s) as [[o s'] out]. simpl in *.
    inversion H; subst. split; assumption.
Qed.

Lemma run_tracks t s l :
  tracks s l -> tracks (run t s) (fold_left open_step t l).
Proof.
  revert s l. induction t as [|ev t IH]; intros s l H; simpl; [exact H|].
  apply IH, handle_tracks, H.
Qed.

Lemma run_snoc t ev s : run (t ++ [ev]) s = fst (handle ev (run t s)).
Proof. unfold run. rewrite fold_left_app. reflexivity. Qed.

Lemma snapshot_open_connections t :
  Permutation (snapshot (run t init)) (map snd (open_connections t)).
Proof.
  rewrite snapshot_idents. apply Permutation_map.
  apply (run_tracks t init []). split; simpl; constructor.
Qed.

(** C1: after any sequence of events from the empty server, a connect and a
    disconnect each broadcast exactly one presence event, whose user list is
    read off the registry after the session was inserted, or removed; as a
    multiset that list is the identities of the connections open at that
    point, each open connection counted once and no closed one counted. *)
Theorem presence_lists_open_connections (t : list event) :
  (forall e hhmm rnd now,
      let ev := Connect e hhmm rnd now in
      snd (handle ev (run t init))
      = [mk_emit "active_users" (ActiveUsers (snapshot (run (t ++ [ev]) init)))
                 Broadcast]
      /\ PyDict.mem (sid e) (active_users (run (t ++ [ev]) init)) = true
      /\ Permutation (snapshot (run (t ++ [ev]) init))
                     (map snd (open_connections (t ++ [ev]))))
  /\ (forall e,
      let ev := Disconnect e in
      snd (handle ev (run t init))
      = [mk_emit "active_users" (ActiveUsers (snapshot (run (t ++ [ev]) init)))
                 Broadcast]
      /\ PyDict.mem (sid e) (active_users (run (t ++ [ev]) init)) = false
      /\ Permutation (snapshot (run (t ++ [ev]) init))
                     (map snd (open_connections (t ++ [ev])))).
Proof.
  split; intros; cbv zeta; rewrite run_snoc; simpl;
    rewrite effects_state, effects_emitted.
  - rewrite connect_run. simpl. repeat split.
    + eapply get_some_mem, get_set.
    + pose proof (snapshot_open_connections (t ++ [Connect e hhmm rnd now])) as H.
      rewrite run_snoc in H. simpl in H.
      rewrite effects_state, connect_run in H. exact H.
  - rewrite disconnect_run. simpl. repeat split.
    + apply mem_del.
    + pose proof (snapshot_open_connections (t ++ [Disconnect e])) as H.
      rewrite run_snoc in H. simpl in H.
      rewrite effects_state, disconnect_run in H. exact H.
Qed.

(** * Further properties of the code *)

(** ** Guest names *)

Lemma length_append (a b : string) :
  String.length (String.append a b) = String.length a + String.length b.
Proof. induction a as [|c a IH]; simpl; [reflexivity | rewrite IH; reflexivity]. Qed.

Lemma append_inj (a a' b b' : string) :
  String.length a = String.length a' ->
  String.append a b = String.append a' b' -> a = a' /\ b = b'.
Proof.
  revert a'. induction a as [|c a IH]; intros [|c' a'] Hl H; simpl in *;
    try discriminate.
  - auto.
  - inversion H; subst. destruct (IH a') as [Ha Hb]; auto.
    subst. auto.
Qed.

Lemma of_N_inj (n n' : N) : PyStr.of_N n = PyStr.of_N n' -> n = n'.
Proof.
  unfold PyStr.of_N. intros H. apply Unsigned.to_uint_inj.
  assert (Hs : Some (N.to_uint n) = Some (N.to_uint n')).
  { rewrite <- !NilEmpty.usu. rewrite H. reflexivity. }
  inversion Hs. reflexivity.
Qed.

Lemma four_digits (rnd : N) :
  (1000 <= rnd <= 9999)%N -> String.length (PyStr.of_N rnd) = 4.
Proof.
  intros Hr.
  assert (Hall : forallb (fun n => N.eqb (N.of_nat (String.length
                                       (PyStr.of_N (1000 + N.of_nat n)))) 4)
                         (seq 0 (N.to_nat 9000)) = true) by (vm_compute; reflexivity).
  rewrite forallb_forall in Hall.
  specialize (Hall (N.to_nat (rnd - 1000))).
  rewrite N2Nat.id in Hall.
  replace (1000 + (rnd - 1000))%N with rnd in Hall by lia.
  assert (Hin : In (N.to_nat (rnd - 1000)) (seq 0 (N.to_nat 9000)))
    by (apply in_seq; lia).
  apply Hall, N.eqb_eq in Hin. lia.
Qed.

(** X1: with the four characters of [%H%M] and a draw in 1000..9999, the
    name is "Guest" followed by the time and four digits: 13 characters, the
    time at offset 5, and never the empty string. *)
Theorem guest_username_shape (hhmm : string) (rnd : N) :
  String.length hhmm = 4 ->
  (1000 <= rnd <= 9999)%N ->
  String.length (generate_guest_username hhmm rnd) = 13
  /\ String.prefix "Guest" (generate_guest_username hhmm rnd) = true
  /\ String.substring 5 4 (generate_guest_username hhmm rnd) = hhmm
  /\ String.substring 9 4 (generate_guest_username hhmm rnd) = PyStr.of_N rnd
  /\ PyStr.truthy (generate_guest_username hhmm rnd) = true.
Proof.
  intros Hh Hr. pose proof (four_digits rnd Hr) as Hd.
  unfold generate_guest_username.
  destruct hhmm as [|a [|b [|c [|d [|x hhmm]]]]]; try discriminate Hh.
  destruct (PyStr.of_N rnd) as [|p [|q [|r [|t [|y ds]]]]]; try discriminate Hd.
  simpl. repeat split.
Qed.

Lemma guest_username_shape_witness :
  String.length (generate_guest_username "0930" 1234) = 13
  /\ String.prefix "Guest" (generate_guest_username "0930" 1234) = true
  /\ String.substring 5 4 (generate_guest_username "0930" 1234) = "0930"
  /\ String.substring 9 4 (generate_guest_username "0930" 1234) = PyStr.of_N 1234
  /\ PyStr.truthy (generate_guest_username "0930" 1234) = true.
Proof.
  apply guest_username_shape; [reflexivity | lia].
Defined.

(** X2: two generated names are equal only when they were made in the same
    minute with the same draw; within one minute distinct draws give
    distinct names. *)
Theorem guest_username_collides_only_on_same_draw (h1 h2 : string) (r1 r2 : N) :
  String.length h1 = String.length h2 ->
  generate_guest_username h1 r1 = generate_guest_username h2 r2 ->
  h1 = h2 /\ r1 = r2.
Proof.
  unfold generate_guest_username. intros Hl H.
  apply append_inj in H as [_ H]; [|reflexivity].
  apply append_inj in H as [Hh Hr]; [|exact Hl].
  split; [exact Hh | apply of_N_inj, Hr].
Qed.

Lemma guest_username_collides_only_on_same_draw_witness :
  "0930" = "0930" /\ 1234%N = 1234%N.
Proof.
  apply (guest_username_collides_only_on_same_draw "0930" "0930" 1234 1234);
    reflexivity.
Defined.

(** ** The page and the socket *)

(** X3: the page route leaves a username in the session and shows that
    name; a later visit with that session shows the same name whatever the
    clock and the draw are by then; and a socket that connects with that
    session is registered under the name the page showed, with no room.  The
    rooms the page offers are the configured ones, so each of them passes the
    check of [on_join]. *)
Theorem page_name_is_registered_name
    (sess : option string) (hhmm hhmm' hhmm'' : string) (rnd rnd' rnd'' : N)
    (k now : string) (s : server) :
  let visit := home sess hhmm rnd in
  let name := page_username (snd visit) in
  fst visit = Some name
  /\ home (fst visit) hhmm' rnd' = visit
  /\ PyDict.get k (active_users
                     (snd (fst (connect (mk_env k (fst visit)) hhmm'' rnd'' now s))))
     = Some (mk_user name None now)
  /\ (forall r, In r (page_rooms (snd visit)) -> in_chat_rooms r = true).
Proof.
  cbv zeta. unfold home.
  destruct sess as [u|]; cbn [fst snd page_username page_rooms];
    (split; [reflexivity|]); (split; [reflexivity|]); split.
  - rewrite connect_run. apply get_set.
  - intros r Hr. apply in_chat_rooms_iff, Hr.
  - rewrite connect_run. apply get_set.
  - intros r Hr. apply in_chat_rooms_iff, Hr.
Qed.

(** ** Connecting and disconnecting *)

Lemma set_absent {V} k (v : V) d :
  PyDict.mem k d = false -> PyDict.set k v d = d ++ [(k, v)].
Proof.
  induction d as [|[k0 v0] d IH]; simpl; [reflexivity|].
  destruct (String.eqb k0 k); simpl; [discriminate|].
  intros H. f_equal. exact (IH H).
Qed.

Lemma del_app {V} k (d d' : PyDict.dict V) :
  PyDict.del k (d ++ d') = PyDict.del k d ++ PyDict.del k d'.
Proof. unfold PyDict.del. apply filter_app. Qed.

Lemma get_set_other {V} k k' (v : V) d :
  k' <> k -> PyDict.get k' (PyDict.set k v d) = PyDict.get k' d.
Proof.
  intros Hk. induction d as [|[k0 v0] d IH]; simpl.
  - destruct (String.eqb_spec k k'); [congruence | reflexivity].
  - destruct (String.eqb_spec k0 k) as [E|E]; simpl.
    + subst k0. destruct (String.eqb_spec k k'); [congruence | reflexivity].
    + destruct (String.eqb k0 k'); [reflexivity | exact IH].
Qed.

Lemma get_del_other {V} k k' (d : PyDict.dict V) :
  k' <> k -> PyDict.get k' (PyDict.del k d) = PyDict.get k' d.
Proof.
  intros Hk. induction d as [|[k0 v0] d IH]; simpl; [reflexivity|].
  destruct (String.eqb_spec k0 k) as [E|E]; simpl.
  - subst k0. destruct (String.eqb_spec k k'); [congruence | exact IH].
  - destruct (String.eqb k0 k'); [reflexivity | exact IH].
Qed.

(** X4: a connect for a connection id that is not registered appends: the
    registry is the old one followed by the new session, which has no room,
    the presence list is the old list followed by the new identity, and the
    transport's room table is untouched. *)
Theorem connect_appends_new_session
    (e : env) (hhmm : string) (rnd : N) (now : string) (s : server) :
  PyDict.mem (sid e) (active_users s) = false ->
  let s' := snd (fst (connect e hhmm rnd now s)) in
  active_users s'
  = active_users s ++ [(sid e, mk_user (identity e hhmm rnd) None now)]
  /\ snapshot s' = snapshot s ++ [identity e hhmm rnd]
  /\ rooms s' = rooms s.
Proof.
  intros Hm. cbv zeta. rewrite connect_run.
  unfold connected, snapshot, PyDict.values. cbn [fst snd active_users rooms].
  rewrite (set_absent _ _ _ Hm), !map_app. repeat split.
Qed.

Lemma connect_appends_new_session_witness :
  let e := mk_env "b" None in
  let s' := snd (fst (connect e "0930" 1234 "t2" in_tech)) in
  active_users s'
  = active_users in_tech ++ [("b", mk_user (identity e "0930" 1234) None "t2")]
  /\ snapshot s' = snapshot in_tech ++ [identity e "0930" 1234]
  /\ rooms s' = rooms in_tech.
Proof.
  intros e. apply (connect_appends_new_session e "0930" 1234 "t2" in_tech).
  reflexivity.
Defined.

(** X5: a connect for a connection id that is already registered replaces
    its session where it stands: the ids keep their order, the new record
    has the identity of this connect and no room, whatever room the old one
    had, and the transport's room table is left as it was. *)
Theorem connect_replaces_registered_session
    (e : env) (hhmm : string) (rnd : N) (now : string) (s : server) :
  PyDict.mem (sid e) (active_users s) = true ->
  let s' := snd (fst (connect e hhmm rnd now s)) in
  PyDict.keys (active_users s') = PyDict.keys (active_users s)
  /\ PyDict.get (sid e) (active_users s')
     = Some (mk_user (identity e hhmm rnd) None now)
  /\ room_of (sid e) s' = None
  /\ rooms s' = rooms s.
Proof.
  intros Hm. cbv zeta. rewrite connect_run.
  unfold connected, room_of. cbn [fst snd active_users rooms].
  rewrite (keys_set_present _ _ _ Hm), get_set. repeat split.
Qed.

Lemma connect_replaces_registered_session_witness :
  let e := mk_env "a" (Some "Guest7777") in
  let s' := snd (fst (connect e "0931" 4321 "t2" in_tech)) in
  PyDict.keys (active_users s') = PyDict.keys (active_users in_tech)
  /\ PyDict.get "a" (active_users s') = Some (mk_user "Guest7777" None "t2")
  /\ room_of "a" s' = None
  /\ rooms s' = rooms in_tech.
Proof.
  intros e. apply (connect_replaces_registered_session e "0931" 4321 "t2" in_tech).
  reflexivity.
Defined.

(** X6: a connect of an unregistered connection id followed by its
    disconnect gives back the state from before the connect. *)
Theorem connect_then_disconnect_restores
    (e : env) (hhmm : string) (rnd : N) (now : string) (s : server) :
  PyDict.mem (sid e) (active_users s) = false ->
  snd (fst (disconnect e (snd (fst (connect e hhmm rnd now s))))) = s.
Proof.
  intros Hm. rewrite connect_run, disconnect_run.
  unfold disconnected, connected. cbn [fst snd active_users rooms].
  rewrite (set_absent _ _ _ Hm), del_app, (del_absent _ _ Hm).
  simpl. rewrite String.eqb_refl. simpl. rewrite app_nil_r.
  destruct s; reflexivity.
Qed.

Lemma connect_then_disconnect_restores_witness :
  let e := mk_env "b" None in
  snd (fst (disconnect e (snd (fst (connect e "0930" 1234 "t2" in_tech))))) = in_tech.
Proof.
  intros e. apply (connect_then_disconnect_restores e "0930" 1234 "t2" in_tech).
  reflexivity.
Defined.

(** X7: no handler touches the session of another connection: whatever the
    event, the registry entry of every connection id other than the event's
    own is after the event what it was before. *)
Theorem handlers_leave_other_sessions_alone (ev : event) (s : server) (k : string) :
  k <> event_sid ev ->
  PyDict.get k (active_users (fst (handle ev s))) = PyDict.get k (active_users s).
Proof.
  intros Hk. destruct ev as [e hhmm rnd now|e|e d now|e d now|e d now];
    simpl in Hk; simpl handle; rewrite effects_state.
  - rewrite connect_run. apply get_set_other, Hk.
  - rewrite disconnect_run. apply get_del_other, Hk.
  - destruct (on_join_users e d now s) as [Heq|[v [_ [_ Heq]]]]; rewrite Heq;
      [reflexivity | apply get_set_other, Hk].
  - destruct (on_leave_users e d now s) as [Heq|[v [_ Heq]]]; rewrite Heq;
      [reflexivity | apply get_set_other, Hk].
  - pose proof (handle_messages_state e d now s) as H.
    destruct (handle_messages e d now s) as [[o s'] out]. simpl in *.
    inversion H; subst. reflexivity.
Qed.

Lemma handlers_leave_other_sessions_alone_witness :
  PyDict.get "a" (active_users
                    (fst (handle (Leave (mk_env "b" (Some "Guest2222"))
                                        (mk_data (Some "Tech") None None None) "t2")
                                 in_tech)))
  = PyDict.get "a" (active_users in_tech).
Proof.
  apply handlers_leave_other_sessions_alone. discriminate.
Defined.

(** ** Messages to a room and to a connection *)

Lemma truthy_nonempty (m : string) : m <> EmptyString -> PyStr.truthy m = true.
Proof. destruct m; [contradiction | reflexivity]. Qed.

Lemma truthy_true_nonempty (m : string) : PyStr.truthy m = true -> m <> EmptyString.
Proof. destruct m; [discriminate | discriminate]. Qed.

(** X8: a message of any type but "private" (an absent type counts as
    "message") whose text is not empty once stripped is checked against the
    configured rooms only: for a configured room (General when absent) exactly
    one [message] event with the stripped text, the sender, the room and the
    timestamp goes to that room, and for any other room nothing is emitted.
    The registry is not consulted: the sender need not be in the room, nor be
    registered at all, and the state is left as it was. *)
Theorem room_message_is_broadcast
    (e : env) (d : data) (now : string) (s : server) (u m : string) :
  session e = Some u ->
  get_default (d_type d) "message" <> "private" ->
  PyStr.strip (get_default (d_msg d) EmptyString) = m ->
  m <> EmptyString ->
  handle_messages e d now s
  = (Ret tt, s,
     if in_chat_rooms (get_default (d_room d) "General")
     then [mk_emit "message"
                   (Message m u (get_default (d_room d) "General") now)
                   (ToRoom (get_default (d_room d) "General"))]
     else []).
Proof.
  intros Hs Ht Hm Hne. apply String.eqb_neq in Ht.
  unfold handle_messages, handle_messages_body. unfold_py.
  rewrite Hs, Hm, (truthy_nonempty _ Hne), Ht. simpl.
  destruct (in_chat_rooms _); reflexivity.
Qed.

Lemma room_message_is_broadcast_witness :
  handle_messages (mk_env "zz" (Some "Guest9999"))
                  (mk_data None (Some "shout") (Some " hi ") None) "t2" in_tech
  = (Ret tt, in_tech,
     [mk_emit "message" (Message "hi" "Guest9999" "General" "t2") (ToRoom "General")]).
Proof.
  apply (room_message_is_broadcast (mk_env "zz" (Some "Guest9999"))
           (mk_data None (Some "shout") (Some " hi ") None) "t2" in_tech
           "Guest9999" "hi"); try reflexivity; discriminate.
Defined.

(** X9: a private message does not look at the room field: whatever room the
    event names, configured or not, or none, the handler does the same. *)
Theorem private_message_ignores_room
    (e : env) (d : data) (now : string) (s : server) (r : option string) :
  d_type d = Some "private" ->
  handle_messages e (mk_data r (d_type d) (d_msg d) (d_target d)) now s
  = handle_messages e d now s.
Proof.
  intros Ht. unfold handle_messages, handle_messages_body. unfold_py.
  cbn [d_room d_type d_msg d_target]. rewrite Ht. simpl.
  destruct (session e); [|reflexivity].
  destruct (negb (PyStr.truthy _)); reflexivity.
Qed.

Lemma private_message_ignores_room_witness :
  let d := mk_data (Some "General") (Some "private") (Some "psst") (Some "Guest1111") in
  handle_messages (mk_env "a" (Some "Guest1111"))
                  (mk_data (Some "Nowhere") (d_type d) (d_msg d) (d_target d))
                  "t2" in_tech
  = handle_messages (mk_env "a" (Some "Guest1111")) d "t2" in_tech.
Proof.
  intros d. apply private_message_ignores_room. reflexivity.
Defined.

Lemma deliver_private_emitted items m u t now s :
  snd (deliver_private items m u t now s) = []
  \/ exists k v, In (k, v) items /\ username v = t
                 /\ snd (deliver_private items m u t now s)
                    = [private_message m u t now k].
Proof.
  induction items as [|[k0 v0] items IH]; simpl; [left; reflexivity|].
  destruct (String.eqb_spec (username v0) t) as [E|E].
  - right. exists k0, v0. auto.
  - destruct IH as [IH|[k [v [Hin [Hv Hout]]]]]; [left; exact IH|].
    right. exists k, v. auto.
Qed.

(** What [handle_messages] can emit, for any input. *)
Lemma handle_messages_emitted e d now s :
  snd (handle_messages e d now s) = []
  \/ exists u,
       session e = Some u
       /\ PyStr.strip (get_default (d_msg d) EmptyString) <> EmptyString
       /\ ((in_chat_rooms (get_default (d_room d) "General") = true
            /\ snd (handle_messages e d now s)
               = [mk_emit "message"
                          (Message (PyStr.strip (get_default (d_msg d) EmptyString))
                                   u (get_default (d_room d) "General") now)
                          (ToRoom (get_default (d_room d) "General"))])
           \/ (exists t k v,
                 d_target d = Some t /\ In (k, v) (active_users s)
                 /\ username v = t
                 /\ snd (handle_messages e d now s)
                    = [private_message
                         (PyStr.strip (get_default (d_msg d) EmptyString))
                         u t now k])).
Proof.
  unfold handle_messages, handle_messages_body. unfold_py.
  destruct (session e) as [u|]; [|left; reflexivity].
  destruct (PyStr.truthy (PyStr.strip (get_default (d_msg d) EmptyString))) eqn:Hm;
    simpl; [|left; reflexivity].
  apply truthy_true_nonempty in Hm.
  destruct (String.eqb _ "private").
  - destruct (d_target d) as [t|]; [|left; reflexivity].
    destruct (PyStr.truthy t); simpl; [|left; reflexivity].
    pose proof (deliver_private_emitted (active_users s)
                  (PyStr.strip (get_default (d_msg d) EmptyString)) u t now s) as H.
    pose proof (deliver_private_state (active_users s)
                  (PyStr.strip (get_default (d_msg d) EmptyString)) u t now s) as Hst.
    destruct (deliver_private _ _ _ _ _ s) as [[o s'] out]. simpl in *.
    inversion Hst; subst.
    destruct H as [H|[k [v [Hin [Hv Hout]]]]]; subst; [left; reflexivity|].
    right. exists u. repeat split; auto.
    right. exists (username v), k, v. auto.
  - destruct (in_chat_rooms _) eqn:Hr; simpl; [|left; reflexivity].
    right. exists u. repeat split; auto.
Qed.

Lemma lstrip_no_leading (s : string) : leading_space (PyStr.lstrip s) = false.
Proof.
  induction s as [|c s IH]; simpl; [reflexivity|].
  destruct (PyStr.isspace c) eqn:E; [exact IH | simpl; exact E].
Qed.

Lemma rstrip_keeps_head (s : string) :
  leading_space s = false -> leading_space (PyStr.rstrip s) = false.
Proof.
  destruct s as [|c s]; simpl; [reflexivity|].
  intros Hc. rewrite Hc. destruct (PyStr.rstrip s); simpl; exact Hc.
Qed.

Lemma rstrip_no_trailing (s : string) : trailing_space (PyStr.rstrip s) = false.
Proof.
  induction s as [|c s IH]; simpl; [reflexivity|].
  destruct (PyStr.rstrip s) as [|c' r] eqn:E.
  - destruct (PyStr.isspace c) eqn:Ec; simpl; [reflexivity | exact Ec].
  - exact IH.
Qed.

(** X10: every event [handle_messages] emits carries a text, and that text
    is the message as stripped: it is not empty and neither begins nor ends
    with whitespace. *)
Theorem delivered_text_is_stripped
    (e : env) (d : data) (now : string) (s : server) (x : emitted) :
  In x (snd (handle_messages e d now s)) ->
  payload_text (ev_payload x)
  = Some (PyStr.strip (get_default (d_msg d) EmptyString))
  /\ PyStr.strip (get_default (d_msg d) EmptyString) <> EmptyString
  /\ leading_space (PyStr.strip (get_default (d_msg d) EmptyString)) = false
  /\ trailing_space (PyStr.strip (get_default (d_msg d) EmptyString)) = false.
Proof.
  intros Hx.
  assert (Hclean : leading_space (PyStr.strip (get_default (d_msg d) EmptyString)) = false
                   /\ trailing_space (PyStr.strip (get_default (d_msg d) EmptyString)) = false).
  { unfold PyStr.strip. split;
      [apply rstrip_keeps_head, lstrip_no_leading | apply rstrip_no_trailing]. }
  destruct (handle_messages_emitted e d now s)
    as [H|[u [_ [Hne [[_ H]|[t [k [v [_ [_ [_ H]]]]]]]]]]];
    rewrite H in Hx; [destruct Hx| |];
    (destruct Hx as [Hx|[]]; subst x; simpl; tauto).
Qed.

Lemma delivered_text_is_stripped_witness :
  let d := mk_data None None (Some "  hello there  ") None in
  let x := mk_emit "message" (Message "hello there" "Guest1111" "General" "t2")
                   (ToRoom "General") in
  payload_text (ev_payload x) = Some (PyStr.strip (get_default (d_msg d) EmptyString))
  /\ PyStr.strip (get_default (d_msg d) EmptyString) <> EmptyString
  /\ leading_space (PyStr.strip (get_default (d_msg d) EmptyString)) = false
  /\ trailing_space (PyStr.strip (get_default (d_msg d) EmptyString)) = false.
Proof.
  intros d x.
  apply (delivered_text_is_stripped (mk_env "a" (Some "Guest1111")) d "t2" in_tech x).
  simpl. left. reflexivity.
Defined.

(** X11: a [private_message] event only ever goes to a registered
    connection whose username is the target of the event; no other
    connection, and no room, is addressed. *)
Theorem private_message_recipient_is_named_target
    (e : env) (d : data) (now : string) (s : server) (x : emitted) :
  In x (snd (handle_messages e d now s)) ->
  ev_name x = "private_message" ->
  exists k v,
    ev_dest x = ToRoom k /\ In (k, v) (active_users s)
    /\ d_target d = Some (username v).
Proof.
  intros Hx Hn.
  destruct (handle_messages_emitted e d now s)
    as [H|[u [_ [Hne [[_ H]|[t [k [v [Ht [Hin [Hv H]]]]]]]]]]];
    rewrite H in Hx; [destruct Hx| |];
    (destruct Hx as [Hx|[]]; subst x; simpl in *).
  - discriminate.
  - exists k, v. subst t. auto.
Qed.

Lemma private_message_recipient_is_named_target_witness :
  exists k v,
    ev_dest (private_message "psst" "Guest1111" "Guest1111" "t2" "a") = ToRoom k
    /\ In (k, v) (active_users in_tech)
    /\ d_target (mk_data None (Some "private") (Some "psst") (Some "Guest1111"))
       = Some (username v).
Proof.
  apply (private_message_recipient_is_named_target
           (mk_env "a" (Some "Guest1111"))
           (mk_data None (Some "private") (Some "psst") (Some "Guest1111"))
           "t2" in_tech).
  - simpl. left. reflexivity.
  - reflexivity.
Defined.

(** ** Joining, in full *)

Lemma pair_eqb_eq (p q : string * string) : pair_eqb p q = true <-> p = q.
Proof.
  destruct p as [a b], q as [a' b']. unfold pair_eqb. simpl.
  rewrite andb_true_iff, !String.eqb_eq. split.
  - intros [-> ->]. reflexivity.
  - intros H. inversion H. auto.
Qed.

Lemma entered_keeps k r t p : In p t -> In p (entered k r t).
Proof.
  unfold entered. destruct (existsb _ t); [auto | intros H; apply in_or_app; auto].
Qed.

Lemma entered_has k r t : In (k, r) (entered k r t).
Proof.
  unfold entered. destruct (existsb _ t) eqn:E.
  - apply existsb_exists in E as [p [Hin Hp]].
    apply pair_eqb_eq in Hp. subst p. exact Hin.
  - apply in_or_app. right. left. reflexivity.
Qed.

Lemma entered_twice k r t : entered k r (entered k r t) = entered k r t.
Proof.
  unfold entered at 1.
  assert (H : existsb (pair_eqb (k, r)) (entered k r t) = true).
  { apply existsb_exists. exists (k, r). split;
      [apply entered_has | apply pair_eqb_eq; reflexivity]. }
  rewrite H. reflexivity.
Qed.


(** [on_join] on every input. *)
Lemma on_join_cases e d now s :
  on_join e d now s
  = match session e with
    | None => (Ret tt, s, [])
    | Some u =>
        let r := get_default (d_room d) "General" in
        if in_chat_rooms r then
          match PyDict.get (sid e) (active_users s) with
          | Some v =>
              (Ret tt,
               mk_server (PyDict.set (sid e) (set_room r v) (active_users s))
                         (entered (sid e) r (rooms s)),
               [status_join u r now])
          | None =>
              (Ret tt, mk_server (active_users s) (entered (sid e) r (rooms s)), [])
          end
        else (Ret tt, s, [])
    end.
Proof.
  unfold on_join, on_join_body, entered. unfold_py.
  destruct (session e) as [u|]; [|reflexivity].
  destruct (in_chat_rooms _); simpl; [|reflexivity].
  destruct (existsb _ (rooms s)); simpl;
    destruct (PyDict.get (sid e) (active_users s)); try reflexivity.
  destruct s; reflexivity.
Qed.

(** [on_leave] on every input. *)
Lemma on_leave_cases e d now s :
  on_leave e d now s
  = match session e with
    | None => (Ret tt, s, [])
    | Some u =>
        let r := get_default (d_room d) "General" in
        (Ret tt,
         mk_server (match PyDict.get (sid e) (active_users s) with
                    | Some v => PyDict.set (sid e) (pop_room v) (active_users s)
                    | None => active_users s
                    end)
                   (left_room (sid e) r (rooms s)),
         [status_leave u r now])
    end.
Proof.
  destruct (session e) as [u|] eqn:Hs.
  - apply on_leave_run, Hs.
  - unfold on_leave, on_leave_body. unfold_py. rewrite Hs. reflexivity.
Qed.


(** X13: an inbound event puts out at most one event; a connect and a
    disconnect put out exactly one. *)
Theorem one_event_at_most (ev : event) (s : server) :
  (List.length (snd (handle ev s)) <= 1)%nat
  /\ (forall e hhmm rnd now,
        List.length (snd (handle (Connect e hhmm rnd now) s)) = 1%nat)
  /\ (forall e, List.length (snd (handle (Disconnect e) s)) = 1%nat).
Proof.
  split; [|split; intros; simpl; rewrite effects_emitted;
             [rewrite connect_run | rewrite disconnect_run]; reflexivity].
  destruct ev as [e hhmm rnd now|e|e d now|e d now|e d now];
    simpl; rewrite effects_emitted.
  - rewrite connect_run. simpl. lia.
  - rewrite disconnect_run. simpl. lia.
  - rewrite on_join_cases. destruct (session e); simpl; [|lia].
    destruct (in_chat_rooms _); simpl; [|lia].
    destruct (PyDict.get _ _); simpl; lia.
  - rewrite on_leave_cases. destruct (session e); simpl; lia.
  - destruct (handle_messages_emitted e d now s)
      as [H|[u [_ [_ [[_ H]|[t [k [v [_ [_ [_ H]]]]]]]]]]]; rewrite H; simpl; lia.
Qed.

(** X14: the status event of a join and the [message] event of a room
    message are only ever addressed to one of the configured rooms. *)
Theorem join_and_room_message_go_to_configured_rooms
    (e : env) (d : data) (now : string) (s : server) (x : emitted) :
  (In x (snd (on_join e d now s)) \/
   (In x (snd (handle_messages e d now s)) /\ ev_name x = "message")) ->
  exists r, ev_dest x = ToRoom r /\ In r CHAT_ROOMS.
Proof.
  intros [Hx|[Hx Hn]].
  - rewrite on_join_cases in Hx. destruct (session e); simpl in Hx; [|contradiction].
    destruct (in_chat_rooms _) eqn:Hr; simpl in Hx; [|contradiction].
    destruct (PyDict.get _ _); simpl in Hx; [|contradiction].
    destruct Hx as [Hx|[]]. subst x. eexists. split; [reflexivity|].
    apply in_chat_rooms_iff, Hr.
  - destruct (handle_messages_emitted e d now s)
      as [H|[u [_ [_ [[Hr H]|[t [k [v [_ [_ [_ H]]]]]]]]]]];
      rewrite H in Hx; [destruct Hx| |];
      (destruct Hx as [Hx|[]]; subst x; simpl in *).
    + eexists. split; [reflexivity|]. apply in_chat_rooms_iff, Hr.
    + discriminate.
Qed.

Lemma join_and_room_message_go_to_configured_rooms_witness :
  exists r, ev_dest (status_join "Guest1111" "Games" "t2") = ToRoom r
            /\ In r CHAT_ROOMS.
Proof.
  apply (join_and_room_message_go_to_configured_rooms
           (mk_env "a" (Some "Guest1111"))
           (mk_data (Some "Games") None None None) "t2" in_tech).
  left. simpl. left. reflexivity.
Defined.

(** X15: with no username in the session, a join, a leave and a message do
    nothing at all: the lookup fails first, the handler swallows the error,
    nothing is emitted and the state is what it was. *)
Theorem no_username_no_effect
    (e : env) (d : data) (now : string) (s : server) :
  session e = None ->
  on_join e d now s = (Ret tt, s, [])
  /\ on_leave e d now s = (Ret tt, s, [])
  /\ handle_messages e d now s = (Ret tt, s, []).
Proof.
  intros Hs. rewrite on_join_cases, on_leave_cases, Hs. repeat split.
  unfold handle_messages, handle_messages_body. unfold_py. rewrite Hs. reflexivity.
Qed.

Lemma no_username_no_effect_witness :
  let e := mk_env "a" None in
  let d := mk_data (Some "General") None (Some "hi") None in
  on_join e d "t2" in_tech = (Ret tt, in_tech, [])
  /\ on_leave e d "t2" in_tech = (Ret tt, in_tech, [])
  /\ handle_messages e d "t2" in_tech = (Ret tt, in_tech, []).
Proof.
  intros e d. apply (no_username_no_effect e d "t2" in_tech). reflexivity.
Defined.

(** X16: a join does not leave the room the session was in: for a registered
    connection and a configured room, the session's room field is overwritten
    with the new room, the transport's table keeps every pair it had and has
    the new one, and the one event emitted is the join status to the new
    room; no leave status goes to the old one. *)
Theorem join_does_not_leave_previous_room
    (e : env) (d : data) (now : string) (s : server) (u r : string) (v : user_data) :
  session e = Some u ->
  PyDict.get (sid e) (active_users s) = Some v ->
  get_default (d_room d) "General" = r ->
  In r CHAT_ROOMS ->
  let s' := snd (fst (on_join e d now s)) in
  room_of (sid e) s' = Some r
  /\ (forall p, In p (rooms s) -> In p (rooms s'))
  /\ In (sid e, r) (rooms s')
  /\ snd (on_join e d now s) = [status_join u r now].
Proof.
  intros Hs Hv Hd Hr. apply in_chat_rooms_iff in Hr.
  cbv zeta. rewrite on_join_cases, Hs, Hd. cbv zeta. rewrite Hr, Hv.
  unfold room_of. cbn [fst snd active_users rooms]. rewrite get_set.
  repeat split.
  - intros p. apply entered_keeps.
  - apply entered_has.
Qed.

Lemma join_does_not_leave_previous_room_witness :
  let e := mk_env "a" (Some "Guest1111") in
  let d := mk_data (Some "Games") None None None in
  let s' := snd (fst (on_join e d "t2" in_tech)) in
  room_of "a" s' = Some "Games"
  /\ (forall p, In p (rooms in_tech) -> In p (rooms s'))
  /\ In ("a", "Games") (rooms s')
  /\ snd (on_join e d "t2" in_tech) = [status_join "Guest1111" "Games" "t2"].
Proof.
  intros e d.
  apply (join_does_not_leave_previous_room e d "t2" in_tech "Guest1111" "Games"
           (mk_user "Guest1111" (Some "Tech") "t0")); try reflexivity.
  simpl. auto.
Defined.

(** X17: joining the same room again changes nothing: the state after a
    second join of a room is the state after the first.  The second join
    still emits what a first join at that time would have: the status goes
    out both times. *)
Theorem join_twice_is_join_once
    (e : env) (d : data) (now1 now2 : string) (s : server) :
  let s1 := snd (fst (on_join e d now1 s)) in
  snd (fst (on_join e d now2 s1)) = s1
  /\ snd (on_join e d now2 s1) = snd (on_join e d now2 s).
Proof.
  cbv zeta. rewrite !on_join_cases.
  destruct (session e) as [u|]; cbv zeta; [|simpl; auto].
  destruct (in_chat_rooms _) eqn:Hr; [|simpl; auto].
  destruct (PyDict.get (sid e) (active_users s)) as [v|] eqn:Hv;
    cbn [fst snd active_users rooms].
  - rewrite get_set, set_set, entered_twice. simpl. split; reflexivity.
  - rewrite Hv, entered_twice. simpl. split; reflexivity.
Qed.

(** ** The registry and the room table *)

Lemma left_room_drops k r t : ~ In (k, r) (left_room k r t).
Proof.
  intros H. apply filter_In in H as [_ H].
  apply negb_true_iff in H.
  assert (E : pair_eqb (k, r) (k, r) = true) by (apply pair_eqb_eq; reflexivity).
  congruence.
Qed.

Lemma left_room_keeps k r t p : p <> (k, r) -> In p t -> In p (left_room k r t).
Proof.
  intros Hp Hin. apply filter_In. split; [exact Hin|].
  apply negb_true_iff. destruct (pair_eqb (k, r) p) eqn:E; [|reflexivity].
  apply pair_eqb_eq in E. congruence.
Qed.

(** X18: a leave takes out of the transport's table the pair of this
    connection and the room named, and nothing else: a room the connection
    entered earlier and did not name stays entered, while the session's room
    field is cleared whatever it held. *)
Theorem leave_removes_only_named_room
    (e : env) (d : data) (now : string) (s : server) (u : string) :
  session e = Some u ->
  let r := get_default (d_room d) "General" in
  let s' := snd (fst (on_leave e d now s)) in
  ~ In (sid e, r) (rooms s')
  /\ (forall p, p <> (sid e, r) -> (In p (rooms s') <-> In p (rooms s)))
  /\ room_of (sid e) s' = None.
Proof.
  intros Hs. cbv zeta. rewrite on_leave_cases, Hs. cbv zeta.
  unfold room_of. cbn [fst snd active_users rooms]. repeat split.
  - apply left_room_drops.
  - intros Hin. apply filter_In in Hin. tauto.
  - apply left_room_keeps. assumption.
  - destruct (PyDict.get (sid e) (active_users s)) as [v|] eqn:Hv.
    + rewrite get_set. reflexivity.
    + rewrite Hv. reflexivity.
Qed.

Lemma leave_removes_only_named_room_witness :
  let e := mk_env "a" (Some "Guest1111") in
  let d := mk_data (Some "General") None None None in
  let s' := snd (fst (on_leave e d "t2" in_tech)) in
  ~ In ("a", "General") (rooms s')
  /\ (forall p, p <> ("a", "General") -> (In p (rooms s') <-> In p (rooms in_tech)))
  /\ room_of "a" s' = None.
Proof.
  intros e d.
  apply (leave_removes_only_named_room e d "t2" in_tech "Guest1111"). reflexivity.
Defined.




